(** * EaseAccess backend relay (backend/index.js)

    A shallow embedding of the three endpoints of the backend server:
    - [api_tts]        : POST /api/tts        (text or document to speech),
    - [api_transcribe] : POST /api/transcribe (uploaded audio to text),
    - [Live]           : the WebSocket bridge for live transcription.

    The cloud engines, the transcoder, the document extractors and the
    platform string functions are collaborators of the server: they are
    fields of an environment record [Env], and every theorem holds for every
    environment.  Handlers are written in a small monad that threads the
    file system, the log of calls made to the collaborators and the HTTP
    response, and that tracks the three ways a JavaScript statement list can
    complete: normally, by [return], or by a thrown error. *)

From Stdlib Require Import Ascii String.
From stdpp Require Import gmap strings list fin_maps.

Local Open Scope string_scope.

(** ** JavaScript values *)

(** A thrown JavaScript error; the handlers only ever read [err.message]. *)
Record Error := mkError { message : string }.

(** An object literal whose fields hold strings: [{ transcript }] and
    [{ error: ... }] are the only objects the server serialises. *)
Inductive Json := JObject (fields : list (string * string)).

(** [buffer.toString("base64")], kept symbolic. *)
Inductive Base64 := ToBase64 (bytes : string).

(** Speech-to-text result shapes: [results[i].alternatives[j].transcript]. *)
Record Alternative := { transcript : string }.
Record SpeechResult := { alternatives : list Alternative }.

(** [multer]'s [req.file] and the part of [req] the handlers read:
    [req.body.text] is a string when the form has a text field and
    [undefined] otherwise; [req.file] is [undefined] when no file part came. *)
Record UploadedFile := { originalname : string; path : string }.
Record Request := { body_text : option string; file : option UploadedFile }.

(** ** The HTTP response object *)

Inductive Body :=
| SendText (s : string)
| SendBuffer (bytes : string)
| SendJson (j : Json).

Record Response := {
  statusCode : nat;
  headers : list (string * string);
  sent : list Body
}.

Definition fresh_response : Response :=
  {| statusCode := 200; headers := []; sent := [] |}.

(** ** Calls made to the collaborators, in the order they are made *)

Inductive Event :=
| CallSynthesizeSpeech (text : string)
| CallPdfParse (dataBuffer : string)
| CallMammoth (filePath : string)
| CallFfmpeg (input output : string)
| CallRecognize (content : Base64)
| ConsoleError (label : string) (err : Error).

(** ** The world a handler runs in *)

Record World := {
  fs : gmap string string;
  trace : list Event;
  res : Response
}.

Definition log (e : Event) (w : World) : World :=
  {| fs := fs w; trace := trace w ++ [e]; res := res w |}.

Definition with_fs (f : gmap string string → gmap string string) (w : World) : World :=
  {| fs := f (fs w); trace := trace w; res := res w |}.

Definition with_res (f : Response → Response) (w : World) : World :=
  {| fs := fs w; trace := trace w; res := f (res w) |}.

(** ** The collaborators

    Each engine sees the calls made so far, so an environment can fail on the
    first synthesis and succeed on the second.  [mammoth] and [ffmpeg] open
    the files themselves and so also see the file system. *)

Record Env := {
  path_extname : string → string;
  toLowerCase : string → string;
  trim : string → string;
  synthesizeSpeech : list Event → string → Error + string;
  pdf : list Event → string → Error + string;
  mammoth_extractRawText : list Event → gmap string string → string → Error + string;
  ffmpeg_save : list Event → gmap string string → string → string → Error + string;
  recognize : list Event → Base64 → Error + list SpeechResult
}.

(** ** Completions and the handler monad *)

Inductive Completion (A : Type) :=
| Normal (a : A)
| Return
| Throw (e : Error).
Arguments Normal {A} a.
Arguments Return {A}.
Arguments Throw {A} e.

Definition M (A : Type) : Type := World → Completion A * World.

Definition ret {A} (a : A) : M A := fun w => (Normal a, w).

Definition bind {A B} (m : M A) (k : A → M B) : M B :=
  fun w =>
    match m w with
    | (Normal a, w') => k a w'
    | (Return, w') => (Return, w')
    | (Throw e, w') => (Throw e, w')
    end.

Notation "x <- m ;; k" := (bind m (fun x => k))
  (at level 100, m at next level, right associativity).
Notation "m ;; k" := (bind m (fun _ => k))
  (at level 100, right associativity).

(** [return;] leaves the enclosing function; [throw e] unwinds to the nearest
    [catch]. *)
Definition return_ {A} : M A := fun w => (Return, w).
Definition throw {A} (e : Error) : M A := fun w => (Throw e, w).

(** [try { m } catch (err) { h err }]: only a thrown error enters the
    [catch] block, a [return] inside [try] passes through it. *)
Definition try_catch {A} (m : M A) (h : Error → M A) : M A :=
  fun w =>
    match m w with
    | (Throw e, w') => h e w'
    | r => r
    end.

(** The function boundary: a [return] completes the call normally, a throw
    that reaches it escapes the handler. *)
Definition function_body (m : M unit) : M unit :=
  fun w =>
    match m w with
    | (Return, w') => (Normal tt, w')
    | r => r
    end.

(** ** Primitive operations *)

Definition ENOENT (syscall p : string) : Error :=
  mkError ("ENOENT: no such file or directory, " +:+ syscall +:+ " '" +:+ p +:+ "'").

Definition readFileSync (p : string) : M string :=
  fun w =>
    match fs w !! p with
    | Some content => (Normal content, w)
    | None => (Throw (ENOENT "open" p), w)
    end.

Definition unlinkSync (p : string) : M unit :=
  fun w =>
    match fs w !! p with
    | Some _ => (Normal tt, with_fs (delete p) w)
    | None => (Throw (ENOENT "unlink" p), w)
    end.

Definition console_error (label : string) (err : Error) : M unit :=
  fun w => (Normal tt, log (ConsoleError label err) w).

Definition res_status (code : nat) : M unit :=
  fun w => (Normal tt,
            with_res (fun r => {| statusCode := code; headers := headers r; sent := sent r |}) w).

Definition res_set (k v : string) : M unit :=
  fun w => (Normal tt,
            with_res (fun r => {| statusCode := statusCode r;
                                  headers := headers r ++ [(k, v)];
                                  sent := sent r |}) w).

Definition res_write (b : Body) : M unit :=
  fun w => (Normal tt,
            with_res (fun r => {| statusCode := statusCode r;
                                  headers := headers r;
                                  sent := sent r ++ [b] |}) w).

Definition res_send_text (s : string) : M unit := res_write (SendText s).
Definition res_send_buffer (bytes : string) : M unit := res_write (SendBuffer bytes).
Definition res_json (j : Json) : M unit := res_write (SendJson j).

(** An awaited call to a collaborator: the call is logged, and a rejected
    promise is rethrown by [await]. *)
Definition await {A} (call : Event) (outcome : World → Error + A) : M A :=
  fun w =>
    match outcome w with
    | inr a => (Normal a, log call w)
    | inl e => (Throw e, log call w)
    end.

Section Handlers.

Variable env : Env.

Definition ttsClient_synthesizeSpeech (text : string) : M string :=
  await (CallSynthesizeSpeech text) (fun w => synthesizeSpeech env (trace w) text).

Definition pdf_parse (dataBuffer : string) : M string :=
  await (CallPdfParse dataBuffer) (fun w => pdf env (trace w) dataBuffer).

Definition mammoth (filePath : string) : M string :=
  await (CallMammoth filePath)
        (fun w => mammoth_extractRawText env (trace w) (fs w) filePath).

(** [ffmpeg(input).save(output)] wrapped in a promise: "end" resolves once
    the output file is written, "error" rejects (a failed conversion is taken
    to leave no output file behind). *)
Definition ffmpeg (input output : string) : M unit :=
  fun w =>
    match ffmpeg_save env (trace w) (fs w) input output with
    | inr wav => (Normal tt, with_fs (insert output wav) (log (CallFfmpeg input output) w))
    | inl e => (Throw e, log (CallFfmpeg input output) w)
    end.

Definition sttClient_recognize (content : Base64) : M (list SpeechResult) :=
  await (CallRecognize content) (fun w => recognize env (trace w) content).

(** ** POST /api/tts *)

Definition is_empty (s : string) : bool :=
  match s with EmptyString => true | String _ _ => false end.

(** [!text] for a value that is [undefined] or a string. *)
Definition falsy (text : option string) : bool :=
  match text with None => true | Some s => is_empty s end.

Definition apology : string := "Sorry, text to speech failed. Please try again.".

Definition unsupported_message : string :=
  "Unsupported file type. Please upload .txt, .pdf, or .docx".

(** The body of [try].  The first block runs when [!text && req.file]. *)
Definition api_tts_try (req : Request) : M unit :=
  let text := body_text req in
  text <- match file req with
          | Some f =>
              if falsy text then
                let ext := toLowerCase env (path_extname env (originalname f)) in
                let filePath := path f in
                text <- (if String.eqb ext ".txt" then
                           readFileSync filePath
                         else if String.eqb ext ".pdf" then
                           dataBuffer <- readFileSync filePath ;;
                           pdf_parse dataBuffer
                         else if String.eqb ext ".docx" then
                           mammoth filePath
                         else
                           res_status 400 ;; res_send_text unsupported_message ;; return_) ;;
                unlinkSync filePath ;;
                ret (Some text)
              else ret text
          | None => ret text
          end ;;
  if falsy text || is_empty (trim env (default "" text)) then
    res_status 400 ;; res_send_text "No text found for TTS" ;; return_
  else
    audioContent <- ttsClient_synthesizeSpeech (default "" text) ;;
    res_set "Content-Type" "audio/mpeg" ;;
    res_send_buffer audioContent.

Definition api_tts_catch (err : Error) : M unit :=
  console_error "TTS Error:" err ;;
  try_catch
    (audioContent <- ttsClient_synthesizeSpeech apology ;;
     res_set "Content-Type" "audio/mpeg" ;;
     res_send_buffer audioContent)
    (fun _ => res_status 500 ;; res_send_text "TTS failed completely.").

Definition api_tts (req : Request) : M unit :=
  function_body (try_catch (api_tts_try req) api_tts_catch).

End Handlers.

Section Transcribe.

Variable env : Env.

(** ** POST /api/transcribe *)

(** Reading a property of [undefined] throws a [TypeError]. *)
Definition TypeError_undefined (prop : string) : Error :=
  mkError ("Cannot read properties of undefined (reading '" +:+ prop +:+ "')").

(** [req.file.path] *)
Definition req_file (req : Request) : M UploadedFile :=
  match file req with
  | Some f => ret f
  | None => throw (TypeError_undefined "path")
  end.

(** [r.alternatives[0].transcript] *)
Definition top_transcript (r : SpeechResult) : M string :=
  match alternatives r with
  | a :: _ => ret (transcript a)
  | [] => throw (TypeError_undefined "transcript")
  end.

(** [array.map(f)] for a callback that may throw: elements are visited from
    the first to the last and the first throw aborts the traversal. *)
Fixpoint array_map {A B} (f : A → M B) (l : list A) : M (list B) :=
  match l with
  | [] => ret []
  | x :: rest =>
      y <- f x ;;
      ys <- array_map f rest ;;
      ret (y :: ys)
  end.

(** [array.join(sep)] *)
Definition join (sep : string) (l : list string) : string := String.concat sep l.

Definition api_transcribe_try (req : Request) : M unit :=
  f <- req_file req ;;
  let filePath := path f in
  let tmpWav := filePath +:+ ".wav" in
  ffmpeg env filePath tmpWav ;;
  wav <- readFileSync tmpWav ;;
  let audioBytes := ToBase64 wav in
  results <- sttClient_recognize env audioBytes ;;
  unlinkSync filePath ;;
  unlinkSync tmpWav ;;
  transcripts <- array_map top_transcript results ;;
  let transcript := join " " transcripts in
  res_json (JObject [("transcript", transcript)]).

Definition api_transcribe_catch (err : Error) : M unit :=
  console_error "STT Error:" err ;;
  res_status 500 ;;
  res_json (JObject [("error", message err)]).

Definition api_transcribe (req : Request) : M unit :=
  function_body (try_catch (api_transcribe_try req) api_transcribe_catch).

End Transcribe.

(** ** [JSON.stringify] on objects with string fields *)

Module JSON.

Definition dquote : ascii := "034"%char.
Definition backslash : ascii := "092"%char.

Definition hex_digit (n : nat) : ascii :=
  nth n (list_ascii_of_string "0123456789abcdef") "0"%char.

(** Quotation marks, backslashes and the control characters below U+0020
    are escaped; every other character is copied. *)
Definition escape (c : ascii) : string :=
  let n := nat_of_ascii c in
  if Ascii.eqb c dquote then String backslash (String dquote "")
  else if Ascii.eqb c backslash then String backslash (String backslash "")
  else if Nat.eqb n 8 then String backslash "b"
  else if Nat.eqb n 9 then String backslash "t"
  else if Nat.eqb n 10 then String backslash "n"
  else if Nat.eqb n 12 then String backslash "f"
  else if Nat.eqb n 13 then String backslash "r"
  else if Nat.ltb n 32 then
    String backslash ("u00" +:+ String (hex_digit (n / 16)%nat) (String (hex_digit (n mod 16)%nat) ""))
  else String c "".

Fixpoint escape_string (s : string) : string :=
  match s with
  | EmptyString => ""
  | String c rest => escape c +:+ escape_string rest
  end.

Definition quote (s : string) : string :=
  String dquote (escape_string s +:+ String dquote "").

Definition stringify (j : Json) : string :=
  match j with
  | JObject fields =>
      "{" +:+ String.concat "," (map (fun kv => quote kv.1 +:+ ":" +:+ quote kv.2) fields) +:+ "}"
  end.

End JSON.

(** ** The live transcription bridge ([wss.on("connection", ...)]) *)

Module Live.

(** One message of the streaming recognition channel: [data.results], whose
    entries are interim or final ([isFinal]). *)
Record StreamingResult := { alternatives : list Alternative; isFinal : bool }.
Record StreamingResponse := { results : list StreamingResult }.

(** The events delivered to the callbacks that the connection handler
    registers on the client socket [ws] and on [recognizeStream]. *)
Inductive SessionEvent :=
| WsMessage (msg : string)
| WsClose
| StreamData (data : StreamingResponse)
| StreamError (err : Error).

(** The calls the callbacks make, in the order they are made;
    [console.log] is recorded with its list of arguments. *)
Inductive Action :=
| StreamingRecognize
| RecognizeStreamWrite (chunk : string)
| RecognizeStreamEnd
| WsSend (payload : string)
| ConsoleLog (args : list string)
| ConsoleErrorLog (label : string) (err : Error).

(** [.on("error", (err) => ...)] *)
Definition on_error (err : Error) : list Action :=
  [ConsoleErrorLog "Speech API error:" err;
   WsSend (JSON.stringify (JObject [("error", "Speech recognition error")]))].

(** [.on("data", (data) => ...)] *)
Definition on_data (data : StreamingResponse) : list Action :=
  match results data with
  | r :: _ =>
      match alternatives r with
      | a :: _ =>
          let transcript := transcript a in
          [WsSend (JSON.stringify (JObject [("transcript", transcript)]));
           ConsoleLog ["🗣️"; transcript]]
      | [] => []
      end
  | [] => []
  end.

(** [ws.on("message", (msg) => ...)] *)
Definition on_message (msg : string) : list Action :=
  [RecognizeStreamWrite msg].

(** [ws.on("close", () => ...)] *)
Definition on_close : list Action :=
  [RecognizeStreamEnd; ConsoleLog ["❌ Client disconnected"]].

Definition dispatch (ev : SessionEvent) : list Action :=
  match ev with
  | WsMessage msg => on_message msg
  | WsClose => on_close
  | StreamData data => on_data data
  | StreamError err => on_error err
  end.

(** The connection handler opens the recognition stream; after that the
    session does what its callbacks do, event after event. *)
Definition on_connection : list Action :=
  [ConsoleLog ["🎧 Client connected for live transcription"]; StreamingRecognize].

Fixpoint deliver (evs : list SessionEvent) : list Action :=
  match evs with
  | [] => []
  | ev :: rest => dispatch ev ++ deliver rest
  end.

Definition session (evs : list SessionEvent) : list Action :=
  on_connection ++ deliver evs.

(** *** Projections of a session *)

(** The audio frames the client sent. *)
Fixpoint client_frames (evs : list SessionEvent) : list string :=
  match evs with
  | [] => []
  | WsMessage msg :: rest => msg :: client_frames rest
  | _ :: rest => client_frames rest
  end.

(** The chunks written to the recognition channel. *)
Fixpoint stream_writes (acts : list Action) : list string :=
  match acts with
  | [] => []
  | RecognizeStreamWrite chunk :: rest => chunk :: stream_writes rest
  | _ :: rest => stream_writes rest
  end.

(** The payloads pushed to the client. *)
Fixpoint ws_sends (acts : list Action) : list string :=
  match acts with
  | [] => []
  | WsSend payload :: rest => payload :: ws_sends rest
  | _ :: rest => ws_sends rest
  end.

(** The number of half-close signals given to the recognition channel. *)
Fixpoint stream_ends (acts : list Action) : nat :=
  match acts with
  | [] => 0
  | RecognizeStreamEnd :: rest => S (stream_ends rest)
  | _ :: rest => stream_ends rest
  end.

(** The chunks written to the recognition channel after its first
    half-close. *)
Fixpoint writes_after_end (acts : list Action) : list string :=
  match acts with
  | [] => []
  | RecognizeStreamEnd :: rest => stream_writes rest
  | _ :: rest => writes_after_end rest
  end.

(** The [ws] library emits "close" once per socket and no "message" after
    it; the recognition stream may still emit after that. *)
Fixpoint client_quiet (evs : list SessionEvent) : bool :=
  match evs with
  | [] => true
  | WsMessage _ :: _ | WsClose :: _ => false
  | _ :: rest => client_quiet rest
  end.

Fixpoint ws_protocol (evs : list SessionEvent) : bool :=
  match evs with
  | [] => true
  | WsClose :: rest => client_quiet rest
  | _ :: rest => ws_protocol rest
  end.

Definition client_closed (evs : list SessionEvent) : bool :=
  existsb (fun ev => match ev with WsClose => true | _ => false end) evs.

(** The first transcript of a recognition message, if it has one:
    [data.results[0]?.alternatives[0]]. *)
Definition first_transcript (data : StreamingResponse) : option string :=
  r ← head (results data); a ← head (alternatives r); Some (transcript a).

(** The message each event puts on the client socket. *)
Definition pushed (ev : SessionEvent) : list string :=
  match ev with
  | StreamData data =>
      match first_transcript data with
      | Some t => [JSON.stringify (JObject [("transcript", t)])]
      | None => []
      end
  | StreamError _ => [JSON.stringify (JObject [("error", "Speech recognition error")])]
  | WsMessage _ | WsClose => []
  end.

(** Marking every result of a message as interim or as final. *)
Definition set_final (b : bool) (data : StreamingResponse) : StreamingResponse :=
  {| results := map (fun r => {| alternatives := alternatives r; isFinal := b |})
                    (results data) |}.

(** The number of "close" events of the client socket. *)
Fixpoint client_closes (evs : list SessionEvent) : nat :=
  match evs with
  | [] => 0
  | WsClose :: rest => S (client_closes rest)
  | _ :: rest => client_closes rest
  end.

(** The number of recognition channels opened. *)
Fixpoint stream_opens (acts : list Action) : nat :=
  match acts with
  | [] => 0
  | StreamingRecognize :: rest => S (stream_opens rest)
  | _ :: rest => stream_opens rest
  end.

(** Events of the client socket, as opposed to events of the recognition
    channel. *)
Definition from_client (ev : SessionEvent) : bool :=
  match ev with
  | WsMessage _ | WsClose => true
  | StreamData _ | StreamError _ => false
  end.

End Live.

(** ** A concrete runtime for ASCII input

    [path.extname] as Node implements it for POSIX paths, and
    [String.prototype.toLowerCase] and [String.prototype.trim] restricted to
    ASCII letters and ASCII white space. *)

Module NodeRuntime.

Local Open Scope Z_scope.

Record ExtnameState := {
  startDot : Z;
  startPart : Z;
  end_ : Z;
  matchedSlash : bool;
  preDotState : Z
}.

Definition extname_init : ExtnameState :=
  {| startDot := -1; startPart := 0; end_ := -1; matchedSlash := true; preDotState := 0 |}.

(** The loop [for (let i = path.length - 1; i >= 0; --i)], run over the
    characters of the path from the last to the first. *)
Fixpoint extname_loop (rev_chars : list ascii) (i : Z) (st : ExtnameState) : ExtnameState :=
  match rev_chars with
  | [] => st
  | code :: rest =>
      if Ascii.eqb code "/" then
        if negb (matchedSlash st) then
          {| startDot := startDot st; startPart := i + 1; end_ := end_ st;
             matchedSlash := matchedSlash st; preDotState := preDotState st |}
        else extname_loop rest (i - 1) st
      else
        let st1 :=
          if end_ st =? -1 then
            {| startDot := startDot st; startPart := startPart st; end_ := i + 1;
               matchedSlash := false; preDotState := preDotState st |}
          else st in
        let st2 :=
          if Ascii.eqb code "." then
            if startDot st1 =? -1 then
              {| startDot := i; startPart := startPart st1; end_ := end_ st1;
                 matchedSlash := matchedSlash st1; preDotState := preDotState st1 |}
            else
              {| startDot := startDot st1; startPart := startPart st1; end_ := end_ st1;
                 matchedSlash := matchedSlash st1; preDotState := 1 |}
          else if negb (startDot st1 =? -1) then
            {| startDot := startDot st1; startPart := startPart st1; end_ := end_ st1;
               matchedSlash := matchedSlash st1; preDotState := -1 |}
          else st1 in
        extname_loop rest (i - 1) st2
  end.

Definition extname (p : string) : string :=
  let st := extname_loop (rev (list_ascii_of_string p)) (Z.of_nat (String.length p) - 1)
                         extname_init in
  if (startDot st =? -1) || (end_ st =? -1) || (preDotState st =? 0)
     || ((preDotState st =? 1) && (startDot st =? end_ st - 1)
         && (startDot st =? startPart st + 1))
  then EmptyString
  else substring (Z.to_nat (startDot st)) (Z.to_nat (end_ st - startDot st)) p.

Definition lower (c : ascii) : ascii :=
  let n := nat_of_ascii c in
  if (Nat.leb 65 n && Nat.leb n 90)%bool then ascii_of_nat (n + 32) else c.

Fixpoint toLowerCase (s : string) : string :=
  match s with
  | EmptyString => EmptyString
  | String c rest => String (lower c) (toLowerCase rest)
  end.

Definition is_space (c : ascii) : bool :=
  let n := nat_of_ascii c in
  (Nat.leb 9 n && Nat.leb n 13)%bool || Nat.eqb n 32.

Fixpoint trimStart (s : string) : string :=
  match s with
  | EmptyString => EmptyString
  | String c rest => if is_space c then trimStart rest else s
  end.

Fixpoint trimEnd (s : string) : string :=
  match s with
  | EmptyString => EmptyString
  | String c rest =>
      match trimEnd rest with
      | EmptyString => if is_space c then EmptyString else String c EmptyString
      | kept => String c kept
      end
  end.

Definition trim (s : string) : string := trimEnd (trimStart s).

End NodeRuntime.

(** ** Sample environments *)

Definition engine_down : Error := mkError "14 UNAVAILABLE: synthesis engine is down".

(** Every engine works: synthesis returns a clip for the text, the
    extractors return the document text, the transcoder writes a waveform
    and recognition hears two phrases. *)
Definition working_env : Env := {|
  path_extname := NodeRuntime.extname;
  toLowerCase := NodeRuntime.toLowerCase;
  trim := NodeRuntime.trim;
  synthesizeSpeech := fun _ text => inr ("mp3:" +:+ text);
  pdf := fun _ dataBuffer => inr dataBuffer;
  mammoth_extractRawText := fun _ files p => inr (default "" (files !! p));
  ffmpeg_save := fun _ files input _ => inr ("wav:" +:+ default "" (files !! input));
  recognize := fun _ _ =>
    inr [ {| alternatives := [ {| transcript := "hello" |} ] |};
          {| alternatives := [ {| transcript := "world" |} ] |} ]
|}.

(** The synthesis engine fails on every call. *)
Definition synthesis_down_env : Env := {|
  path_extname := NodeRuntime.extname;
  toLowerCase := NodeRuntime.toLowerCase;
  trim := NodeRuntime.trim;
  synthesizeSpeech := fun _ _ => inl engine_down;
  pdf := pdf working_env;
  mammoth_extractRawText := mammoth_extractRawText working_env;
  ffmpeg_save := ffmpeg_save working_env;
  recognize := recognize working_env
|}.

Definition upload_dir : string := "/srv/backend/uploads/".

Definition disk_with (p content : string) : World :=
  {| fs := {[ p := content ]}; trace := []; res := fresh_response |}.

(** ** Reading a trace, sample requests and sample failures *)

Fixpoint synthesis_calls (t : list Event) : list string :=
  match t with
  | [] => []
  | CallSynthesizeSpeech text :: rest => text :: synthesis_calls rest
  | _ :: rest => synthesis_calls rest
  end.

Fixpoint recognize_calls (t : list Event) : list Base64 :=
  match t with
  | [] => []
  | CallRecognize content :: rest => content :: recognize_calls rest
  | _ :: rest => recognize_calls rest
  end.

(** An engine answer that is a rejection. *)
Definition fails {A} (r : Error + A) : bool :=
  match r with inl _ => true | inr _ => false end.

Definition xyz_upload : UploadedFile :=
  {| originalname := "notes.xyz"; path := upload_dir +:+ "3f2a9c" |}.
Definition xyz_request : Request := {| body_text := None; file := Some xyz_upload |}.
Definition xyz_world : World := disk_with (path xyz_upload) "some bytes".

Definition hello_request : Request := {| body_text := Some "Hello there"; file := None |}.
Definition empty_world : World := {| fs := ∅; trace := []; res := fresh_response |}.

Definition corrupt_pdf : Error := mkError "Invalid PDF structure".

(** The synthesis engine works but [pdf-parse] rejects the document. *)
Definition broken_pdf_env : Env := {|
  path_extname := NodeRuntime.extname;
  toLowerCase := NodeRuntime.toLowerCase;
  trim := NodeRuntime.trim;
  synthesizeSpeech := synthesizeSpeech working_env;
  pdf := fun _ _ => inl corrupt_pdf;
  mammoth_extractRawText := mammoth_extractRawText working_env;
  ffmpeg_save := ffmpeg_save working_env;
  recognize := recognize working_env
|}.

Definition upload_named (name : string) : UploadedFile :=
  {| originalname := name; path := upload_dir +:+ "77c01e" |}.
Definition upload_request (name : string) : Request :=
  {| body_text := None; file := Some (upload_named name) |}.
Definition uploaded_world (name content : string) : World :=
  disk_with (path (upload_named name)) content.

(** The top alternative's transcript of a result that has one. *)
Definition top (r : SpeechResult) : string :=
  match alternatives r with
  | a :: _ => transcript a
  | [] => ""
  end.

Definition unreadable_audio : Error := mkError "ffmpeg exited with code 1: Invalid data found when processing input".
Definition recognition_down : Error := mkError "14 UNAVAILABLE: recognition engine is down".

(** The transcoder rejects every input. *)
Definition transcoder_down_env : Env := {|
  path_extname := NodeRuntime.extname;
  toLowerCase := NodeRuntime.toLowerCase;
  trim := NodeRuntime.trim;
  synthesizeSpeech := synthesizeSpeech working_env;
  pdf := pdf working_env;
  mammoth_extractRawText := mammoth_extractRawText working_env;
  ffmpeg_save := fun _ _ _ _ => inl unreadable_audio;
  recognize := recognize working_env
|}.

(** The transcoder works and the recognition engine rejects every call. *)
Definition recognition_down_env : Env := {|
  path_extname := NodeRuntime.extname;
  toLowerCase := NodeRuntime.toLowerCase;
  trim := NodeRuntime.trim;
  synthesizeSpeech := synthesizeSpeech working_env;
  pdf := pdf working_env;
  mammoth_extractRawText := mammoth_extractRawText working_env;
  ffmpeg_save := ffmpeg_save working_env;
  recognize := fun _ _ => inl recognition_down
|}.

Definition clip_upload : UploadedFile :=
  {| originalname := "clip.webm"; path := upload_dir +:+ "b81d44" |}.
Definition clip_request : Request := {| body_text := None; file := Some clip_upload |}.
Definition clip_world : World := disk_with (path clip_upload) "opus frames".
Definition clip_wav : string := path clip_upload +:+ ".wav".

Definition hello_world_results : list SpeechResult :=
  [ {| alternatives := [ {| transcript := "hello" |} ] |};
    {| alternatives := [ {| transcript := "world" |} ] |} ].

(** [r.alternatives[0]] is defined. *)
Definition has_top (r : SpeechResult) : bool :=
  match alternatives r with
  | [] => false
  | _ :: _ => true
  end.

(** More sample requests and worlds. *)

Definition empty_request : Request := {| body_text := None; file := None |}.

(** A request with both a text field and an upload. *)
Definition text_and_file_request : Request :=
  {| body_text := Some "Hello there"; file := Some xyz_upload |}.

(** Recognition answers with one result that has no alternative. *)
Definition no_alternative_env : Env := {|
  path_extname := NodeRuntime.extname;
  toLowerCase := NodeRuntime.toLowerCase;
  trim := NodeRuntime.trim;
  synthesizeSpeech := synthesizeSpeech working_env;
  pdf := pdf working_env;
  mammoth_extractRawText := mammoth_extractRawText working_env;
  ffmpeg_save := ffmpeg_save working_env;
  recognize := fun _ _ => inr [ {| alternatives := [] |} ]
|}.

Definition key_path : string := "/srv/backend/key.json".

(** The upload of [clip_request] next to a file that belongs to no job. *)
Definition clip_world_with_key : World :=
  {| fs := <[ key_path := "{ }" ]> {[ path clip_upload := "opus frames" ]};
     trace := [];
     res := fresh_response |}.

(** The transcript as the specification words it: the given transcripts
    "joined with a single space", in order. *)
Fixpoint spec_space_joined (transcripts : list string) : string :=
  match transcripts with
  | [] => ""
  | [t] => t
  | t :: rest => t +:+ " " +:+ spec_space_joined rest
  end.

(** Recognition succeeds with two result entries, the second of which has
    no alternative. *)
Definition partial_alternatives_env : Env := {|
  path_extname := NodeRuntime.extname;
  toLowerCase := NodeRuntime.toLowerCase;
  trim := NodeRuntime.trim;
  synthesizeSpeech := synthesizeSpeech working_env;
  pdf := pdf working_env;
  mammoth_extractRawText := mammoth_extractRawText working_env;
  ffmpeg_save := ffmpeg_save working_env;
  recognize := fun _ _ =>
    inr [ {| alternatives := [ {| transcript := "hello" |} ] |};
          {| alternatives := [] |} ]
|}.

(** * Properties *)

Lemma synthesis_calls_app t1 t2 :
  synthesis_calls (t1 ++ t2) = (synthesis_calls t1 ++ synthesis_calls t2)%list.
Proof.
  induction t1 as [|ev t1 IH]; [done|].
  destruct ev; simpl; by rewrite IH.
Qed.

Lemma recognize_calls_app t1 t2 :
  recognize_calls (t1 ++ t2) = (recognize_calls t1 ++ recognize_calls t2)%list.
Proof.
  induction t1 as [|ev t1 IH]; [done|].
  destruct ev; simpl; by rewrite IH.
Qed.

(** ** The monad's equations *)

Lemma bind_normal {A B} (m : M A) (k : A → M B) w a w' :
  m w = (Normal a, w') → bind m k w = k a w'.
Proof. intros H. unfold bind. by rewrite H. Qed.

Lemma bind_throw {A B} (m : M A) (k : A → M B) w e w' :
  m w = (Throw e, w') → bind m k w = (Throw e, w').
Proof. intros H. unfold bind. by rewrite H. Qed.

Lemma bind_return {A B} (m : M A) (k : A → M B) w w' :
  m w = (Return, w') → bind m k w = (Return, w').
Proof. intros H. unfold bind. by rewrite H. Qed.

Lemma try_catch_throw {A} (m : M A) h w e w' :
  m w = (Throw e, w') → try_catch m h w = h e w'.
Proof. intros H. unfold try_catch. by rewrite H. Qed.

(** ** POST /api/tts: the [catch] block *)

(** What the [catch] block does, by the outcome of the fallback synthesis. *)
Lemma api_tts_catch_run env err w :
  api_tts_catch env err w =
    let w1 := log (ConsoleError "TTS Error:" err) w in
    match synthesizeSpeech env (trace w1) apology with
    | inr audio =>
        (Normal tt,
         with_res (fun r => {| statusCode := statusCode r;
                               headers := headers r ++ [("Content-Type", "audio/mpeg")];
                               sent := sent r ++ [SendBuffer audio] |})
                  (log (CallSynthesizeSpeech apology) w1))
    | inl _ =>
        (Normal tt,
         with_res (fun r => {| statusCode := 500;
                               headers := headers r;
                               sent := sent r ++ [SendText "TTS failed completely."] |})
                  (log (CallSynthesizeSpeech apology) w1))
    end.
Proof.
  unfold api_tts_catch, console_error, try_catch, bind, ttsClient_synthesizeSpeech, await.
  simpl. destruct (synthesizeSpeech env _ apology); reflexivity.
Qed.

Lemma api_tts_catch_normal env err w : (api_tts_catch env err w).1 = Normal tt.
Proof.
  rewrite api_tts_catch_run. simpl.
  by destruct (synthesizeSpeech env _ apology).
Qed.

(** No error escapes the handler: the promise it returns is never rejected. *)
Lemma api_tts_never_throws env req w : (api_tts env req w).1 = Normal tt.
Proof.
  unfold api_tts, function_body, try_catch.
  destruct (api_tts_try env req w) as [[[]| |e] w1] eqn:Htry; simpl; try done.
  pose proof (api_tts_catch_normal env e w1) as Hc.
  destruct (api_tts_catch env e w1) as [c w2]. simpl in Hc. by subst c.
Qed.

(** ** POST /api/tts: the [try] block *)

Ltac unfold_tts :=
  unfold api_tts_try, ttsClient_synthesizeSpeech, pdf_parse, mammoth, await,
    readFileSync, unlinkSync, res_status, res_send_text, res_send_buffer, res_set,
    res_write, return_, ret, bind.

(** A request that carries usable text goes straight to the synthesis
    engine, whether or not a file came with it. *)
Lemma api_tts_try_text_run env req t w :
  body_text req = Some t →
  is_empty t = false →
  is_empty (trim env t) = false →
  api_tts_try env req w =
    match synthesizeSpeech env (trace w) t with
    | inr audio =>
        (Normal tt,
         with_res (fun r => {| statusCode := statusCode r;
                               headers := headers r ++ [("Content-Type", "audio/mpeg")];
                               sent := sent r ++ [SendBuffer audio] |})
                  (log (CallSynthesizeSpeech t) w))
    | inl e => (Throw e, log (CallSynthesizeSpeech t) w)
    end.
Proof.
  intros Htext Ht Htrim. unfold_tts. rewrite Htext. simpl. rewrite Ht.
  destruct (file req); simpl; rewrite Ht, Htrim; simpl;
    destruct (synthesizeSpeech env (trace w) t); reflexivity.
Qed.

(** The unsupported-extension branch: the response is written and the
    handler returns; nothing else in the world changes. *)
Lemma api_tts_try_unsupported_run env req f w :
  falsy (body_text req) = true →
  file req = Some f →
  toLowerCase env (path_extname env (originalname f)) ≠ ".txt" →
  toLowerCase env (path_extname env (originalname f)) ≠ ".pdf" →
  toLowerCase env (path_extname env (originalname f)) ≠ ".docx" →
  api_tts_try env req w =
    (Return,
     with_res (fun r => {| statusCode := 400;
                           headers := headers r;
                           sent := sent r ++ [SendText unsupported_message] |}) w).
Proof.
  intros Htext Hfile Htxt Hpdf Hdocx. unfold_tts. rewrite Hfile, Htext.
  apply String.eqb_neq in Htxt, Hpdf, Hdocx. rewrite Htxt, Hpdf, Hdocx.
  reflexivity.
Qed.

(** The [try] block writes to the response only on its way out, so a throw
    leaves the response untouched. *)
Lemma api_tts_try_throw_res env req w e w1 :
  api_tts_try env req w = (Throw e, w1) → res w1 = res w.
Proof.
  unfold_tts. intros H.
  repeat (case_match; simpl in *; simplify_eq); reflexivity.
Qed.

(** The trace of two calls logged one after the other. *)
Lemma trace_log2 a b w : trace (log b (log a w)) = (trace w ++ [a; b])%list.
Proof. simpl. by rewrite <- app_assoc. Qed.



(** C10: when /api/tts answers 400 for an unsupported extension, the file
    system is exactly what it was before the request, so the uploaded
    temporary file is still on disk with its content. *)
Theorem tts_unsupported_upload_left_on_disk env req f content w :
  body_text req = None →
  file req = Some f →
  toLowerCase env (path_extname env (originalname f)) ∉ [".txt"; ".pdf"; ".docx"] →
  fs w !! path f = Some content →
  ∃ w', api_tts env req w = (Normal tt, w') ∧
        statusCode (res w') = 400 ∧
        fs w' = fs w ∧
        fs w' !! path f = Some content.
Proof.
  intros Htext Hfile Hext Hdisk.
  eexists. split.
  - unfold api_tts, function_body, try_catch.
    rewrite (api_tts_try_unsupported_run env req f w); [reflexivity|..].
    + by rewrite Htext.
    + done.
    + set_solver.
    + set_solver.
    + set_solver.
  - done.
Qed.

Lemma tts_unsupported_upload_left_on_disk_witness :
  ∃ w', api_tts working_env xyz_request xyz_world = (Normal tt, w') ∧
        statusCode (res w') = 400 ∧
        fs w' = fs xyz_world ∧
        fs w' !! path xyz_upload = Some "some bytes".
Proof.
  apply (tts_unsupported_upload_left_on_disk working_env xyz_request xyz_upload
           "some bytes" xyz_world).
  - reflexivity.
  - reflexivity.
  - apply (bool_decide_unpack _). vm_compute. exact I.
  - apply lookup_singleton_eq.
Defined.

(** For contrast with the unsupported branch: a .txt upload that is on disk
    is unlinked, whatever happens to the request afterwards. *)
Lemma tts_txt_upload_removed env req f content w :
  body_text req = None →
  file req = Some f →
  toLowerCase env (path_extname env (originalname f)) = ".txt" →
  fs w !! path f = Some content →
  fs (api_tts env req w).2 = delete (path f) (fs w).
Proof.
  intros Htext Hfile Hext Hdisk.
  unfold api_tts, function_body, try_catch. unfold_tts.
  rewrite Htext, Hfile, Hext. simpl. rewrite Hdisk. simpl. rewrite Hdisk. simpl.
  destruct (is_empty content || is_empty (trim env content)); simpl; [done|].
  destruct (synthesizeSpeech env (trace w) content); simpl; [|done].
  rewrite api_tts_catch_run. simpl.
  by destruct (synthesizeSpeech env _ apology).
Qed.

(** C2 (amended): for a /api/tts request whose text is non-empty once
    trimmed, the handler completes without throwing for every synthesis engine; it
    answers 500 exactly when the primary call and the fallback call both
    fail; and when the engine fails on every call, the engine is called
    exactly twice, first with the request text and then with the apology
    phrase, and the answer is the 500 failure message. *)
Theorem tts_fallback_when_synthesis_fails env req t w :
  body_text req = Some t →
  is_empty t = false →
  is_empty (trim env t) = false →
  res w = fresh_response →
  ∃ w', api_tts env req w = (Normal tt, w') ∧
        (statusCode (res w') = 500 ↔
           ∃ e, synthesizeSpeech env (trace w) t = inl e ∧
                fails (synthesizeSpeech env
                         (trace w ++ [CallSynthesizeSpeech t; ConsoleError "TTS Error:" e])
                         apology) = true) ∧
        ((∀ h x, fails (synthesizeSpeech env h x) = true) →
           synthesis_calls (trace w') = (synthesis_calls (trace w) ++ [t; apology])%list ∧
           statusCode (res w') = 500 ∧
           sent (res w') = [SendText "TTS failed completely."]).
Proof.
  intros Htext Ht Htrim Hres.
  unfold api_tts, function_body, try_catch.
  rewrite (api_tts_try_text_run env req t w Htext Ht Htrim).
  destruct (synthesizeSpeech env (trace w) t) as [e1|audio] eqn:Hprimary.
  - rewrite api_tts_catch_run. cbv zeta. rewrite trace_log2.
    destruct (synthesizeSpeech env _ apology) as [e2|audio2] eqn:Hfallback.
    + eexists. split; [reflexivity|]. split.
      * split; [|done]. intros _. exists e1. by rewrite Hfallback.
      * intros _. simpl. rewrite Hres. simpl. split; [|done].
        rewrite <- !app_assoc, !synthesis_calls_app. simpl. done.
    + eexists. split; [reflexivity|]. split.
      * simpl. rewrite Hres. simpl. split; [done|].
        intros (e & He & Hf). simplify_eq. rewrite Hfallback in Hf. done.
      * intros Hdown. specialize (Hdown (trace w ++ [CallSynthesizeSpeech t;
                                    ConsoleError "TTS Error:" e1])%list apology).
        rewrite Hfallback in Hdown. done.
  - eexists. split; [reflexivity|]. split.
    + simpl. rewrite Hres. simpl. split; [done|]. intros (e & He & _). done.
    + intros Hdown. specialize (Hdown (trace w) t). rewrite Hprimary in Hdown. done.
Qed.

Lemma tts_fallback_when_synthesis_fails_witness :
  ∃ w', api_tts synthesis_down_env hello_request empty_world = (Normal tt, w') ∧
        (statusCode (res w') = 500 ↔
           ∃ e, synthesizeSpeech synthesis_down_env (trace empty_world) "Hello there" = inl e ∧
                fails (synthesizeSpeech synthesis_down_env
                         (trace empty_world ++
                            [CallSynthesizeSpeech "Hello there"; ConsoleError "TTS Error:" e])
                         apology) = true) ∧
        ((∀ h x, fails (synthesizeSpeech synthesis_down_env h x) = true) →
           synthesis_calls (trace w') =
             (synthesis_calls (trace empty_world) ++ ["Hello there"; apology])%list ∧
           statusCode (res w') = 500 ∧
           sent (res w') = [SendText "TTS failed completely."]).
Proof.
  apply (tts_fallback_when_synthesis_fails synthesis_down_env hello_request
           "Hello there" empty_world); reflexivity.
Defined.

(** The engine of [synthesis_down_env] does fail on every call, and the run
    of the handler against it makes the two calls and answers 500. *)
Example synthesis_down_run :
  (∀ h x, fails (synthesizeSpeech synthesis_down_env h x) = true) ∧
  synthesis_calls (trace (api_tts synthesis_down_env hello_request empty_world).2)
    = ["Hello there"; apology] ∧
  res (api_tts synthesis_down_env hello_request empty_world).2
    = {| statusCode := 500; headers := []; sent := [SendText "TTS failed completely."] |}.
Proof. split; [done|]. split; reflexivity. Qed.

(** C2, as stated, fails on white space: "   " is a non-empty text, yet
    [!text.trim()] holds for it, so with an engine that fails on every call
    the handler answers 400 and calls the engine zero times, not twice. *)
Lemma tts_blank_text_counterexample :
  (∀ h x, fails (synthesizeSpeech synthesis_down_env h x) = true) ∧
  is_empty "   " = false ∧
  synthesis_calls
    (trace (api_tts synthesis_down_env {| body_text := Some "   "; file := None |}
              empty_world).2) = [] ∧
  api_tts synthesis_down_env {| body_text := Some "   "; file := None |} empty_world
  = (Normal tt,
     {| fs := ∅; trace := [];
        res := {| statusCode := 400; headers := [];
                  sent := [SendText "No text found for TTS"] |} |}).
Proof. split; [done|]. split; [done|]. split; reflexivity. Qed.

(** ** Failures inside the [try] block of /api/tts *)

(** C9: whenever the [try] block of /api/tts throws, at whatever statement,
    the handler logs the error and makes exactly one further call, the
    synthesis of the apology phrase; it completes normally, and it answers
    500 exactly when that fallback call fails (otherwise it sends the
    apology audio). *)
Theorem tts_any_throw_triggers_fallback env req w e w1 :
  res w = fresh_response →
  api_tts_try env req w = (Throw e, w1) →
  ∃ w', api_tts env req w = (Normal tt, w') ∧
        trace w' = (trace w1 ++ [ConsoleError "TTS Error:" e;
                                 CallSynthesizeSpeech apology])%list ∧
        (statusCode (res w') = 500 ↔
           fails (synthesizeSpeech env (trace w1 ++ [ConsoleError "TTS Error:" e])
                    apology) = true) ∧
        (∀ audio,
           synthesizeSpeech env (trace w1 ++ [ConsoleError "TTS Error:" e]) apology
             = inr audio →
           res w' = {| statusCode := 200;
                       headers := [("Content-Type", "audio/mpeg")];
                       sent := [SendBuffer audio] |}).
Proof.
  intros Hres Htry.
  pose proof (api_tts_try_throw_res env req w e w1 Htry) as Hres1.
  unfold api_tts, function_body. rewrite (try_catch_throw _ _ _ _ _ Htry).
  rewrite api_tts_catch_run. cbv zeta.
  change (trace (log (ConsoleError "TTS Error:" e) w1))
    with (trace w1 ++ [ConsoleError "TTS Error:" e])%list.
  destruct (synthesizeSpeech env _ apology) as [e2|audio2] eqn:Hfallback.
  - eexists. split; [reflexivity|]. simpl. rewrite <- app_assoc. split; [done|].
    split; [done|]. intros audio Ha. done.
  - eexists. split; [reflexivity|]. simpl. rewrite <- app_assoc. split; [done|].
    rewrite Hres1, Hres. simpl. split; [done|].
    intros audio Ha. by simplify_eq.
Qed.

(** A corrupt .pdf upload: the primary synthesis is never reached, and the
    fallback still runs. *)
Lemma tts_any_throw_triggers_fallback_witness :
  ∃ w', api_tts broken_pdf_env (upload_request "report.PDF")
          (uploaded_world "report.PDF" "%PDF-1.7 garbage") = (Normal tt, w') ∧
        trace w' = [CallPdfParse "%PDF-1.7 garbage";
                    ConsoleError "TTS Error:" corrupt_pdf;
                    CallSynthesizeSpeech apology] ∧
        (statusCode (res w') = 500 ↔
           fails (synthesizeSpeech broken_pdf_env
                    [CallPdfParse "%PDF-1.7 garbage"; ConsoleError "TTS Error:" corrupt_pdf]
                    apology) = true) ∧
        (∀ audio,
           synthesizeSpeech broken_pdf_env
             [CallPdfParse "%PDF-1.7 garbage"; ConsoleError "TTS Error:" corrupt_pdf] apology
             = inr audio →
           res w' = {| statusCode := 200;
                       headers := [("Content-Type", "audio/mpeg")];
                       sent := [SendBuffer audio] |}).
Proof.
  apply (tts_any_throw_triggers_fallback broken_pdf_env (upload_request "report.PDF")
           (uploaded_world "report.PDF" "%PDF-1.7 garbage") corrupt_pdf
           (log (CallPdfParse "%PDF-1.7 garbage")
                (uploaded_world "report.PDF" "%PDF-1.7 garbage"))).
  - reflexivity.
  - vm_compute. reflexivity.
Defined.

(** The other kinds of failure inside the [try] block reach the same
    fallback: a .txt upload that cannot be read, and a .docx upload that
    cannot be unlinked after its text was extracted. *)
Example tts_read_failure_run :
  (api_tts_try working_env (upload_request "notes.txt") empty_world).1
    = Throw (ENOENT "open" (path (upload_named "notes.txt"))) ∧
  trace (api_tts working_env (upload_request "notes.txt") empty_world).2
    = [ConsoleError "TTS Error:" (ENOENT "open" (path (upload_named "notes.txt")));
       CallSynthesizeSpeech apology] ∧
  sent (res (api_tts working_env (upload_request "notes.txt") empty_world).2)
    = [SendBuffer ("mp3:" +:+ apology)].
Proof. repeat split; vm_compute; reflexivity. Qed.

Example tts_unlink_failure_run :
  (api_tts_try working_env (upload_request "letter.docx") empty_world).1
    = Throw (ENOENT "unlink" (path (upload_named "letter.docx"))) ∧
  trace (api_tts working_env (upload_request "letter.docx") empty_world).2
    = [CallMammoth (path (upload_named "letter.docx"));
       ConsoleError "TTS Error:" (ENOENT "unlink" (path (upload_named "letter.docx")));
       CallSynthesizeSpeech apology] ∧
  sent (res (api_tts working_env (upload_request "letter.docx") empty_world).2)
    = [SendBuffer ("mp3:" +:+ apology)].
Proof. repeat split; vm_compute; reflexivity. Qed.

(** ** POST /api/transcribe *)

Ltac unfold_transcribe :=
  unfold api_transcribe, api_transcribe_try, api_transcribe_catch, function_body,
    try_catch, req_file, ffmpeg, sttClient_recognize, await, console_error,
    readFileSync, unlinkSync, res_status, res_json, res_write, throw, ret, bind.

Lemma append_suffix_nonempty (s t : string) : s = s +:+ t → t = "".
Proof.
  induction s as [|c s IH]; simpl; intros H; [done|].
  injection H as H. by apply IH.
Qed.

(** The derived path is never the upload path itself. *)
Lemma tmpWav_fresh (filePath : string) : filePath +:+ ".wav" ≠ filePath.
Proof. intros H. symmetry in H. by apply append_suffix_nonempty in H. Qed.

Lemma array_map_top_transcript results w :
  Forall (fun r => alternatives r ≠ []) results →
  array_map top_transcript results w = (Normal (map top results), w).
Proof.
  induction 1 as [|r results Hr _ IH]; [done|].
  simpl. unfold bind at 1. unfold top_transcript at 1, top at 1.
  destruct (alternatives r) as [|a alts]; [done|].
  unfold ret at 1. unfold bind at 1. rewrite IH. reflexivity.
Qed.

(** What the handler does when the transcoder rejects the upload. *)
Lemma api_transcribe_transcoder_failure_run env req f e w :
  file req = Some f →
  ffmpeg_save env (trace w) (fs w) (path f) (path f +:+ ".wav") = inl e →
  api_transcribe env req w =
    (Normal tt,
     {| fs := fs w;
        trace := trace w ++ [CallFfmpeg (path f) (path f +:+ ".wav");
                             ConsoleError "STT Error:" e];
        res := {| statusCode := 500;
                  headers := headers (res w);
                  sent := sent (res w) ++ [SendJson (JObject [("error", message e)])] |} |}).
Proof.
  intros Hfile Hffmpeg. unfold_transcribe. rewrite Hfile. simpl. rewrite Hffmpeg. simpl.
  unfold with_res, log. simpl. by rewrite <- app_assoc.
Qed.

(** C7: when the transcoder fails for a batch transcription job, the
    handler answers 500 with the JSON body [{error: message}] carrying the
    transcoder's error message, and it makes no call to the recognition
    engine: the only calls of the job are the transcoder call and the error
    log. *)
Theorem transcribe_transcoder_failure env req f e w :
  file req = Some f →
  ffmpeg_save env (trace w) (fs w) (path f) (path f +:+ ".wav") = inl e →
  ∃ w', api_transcribe env req w = (Normal tt, w') ∧
        statusCode (res w') = 500 ∧
        sent (res w') = (sent (res w) ++ [SendJson (JObject [("error", message e)])])%list ∧
        trace w' = (trace w ++ [CallFfmpeg (path f) (path f +:+ ".wav");
                                ConsoleError "STT Error:" e])%list ∧
        recognize_calls (trace w') = recognize_calls (trace w).
Proof.
  intros Hfile Hffmpeg.
  rewrite (api_transcribe_transcoder_failure_run env req f e w Hfile Hffmpeg).
  eexists. split; [reflexivity|]. simpl. repeat split.
  rewrite recognize_calls_app. simpl. by rewrite app_nil_r.
Qed.

Lemma transcribe_transcoder_failure_witness :
  ∃ w', api_transcribe transcoder_down_env clip_request clip_world = (Normal tt, w') ∧
        statusCode (res w') = 500 ∧
        sent (res w') = [SendJson (JObject [("error", message unreadable_audio)])] ∧
        trace w' = [CallFfmpeg (path clip_upload) clip_wav;
                    ConsoleError "STT Error:" unreadable_audio] ∧
        recognize_calls (trace w') = [].
Proof.
  apply (transcribe_transcoder_failure transcoder_down_env clip_request clip_upload
           unreadable_audio clip_world); reflexivity.
Defined.

(** What the handler does when both engines succeed and every result has a
    top alternative: both files are unlinked and the joined transcript is
    sent. *)
Lemma api_transcribe_success_run env req f content wav results w :
  file req = Some f →
  fs w !! path f = Some content →
  ffmpeg_save env (trace w) (fs w) (path f) (path f +:+ ".wav") = inr wav →
  recognize env (trace w ++ [CallFfmpeg (path f) (path f +:+ ".wav")]) (ToBase64 wav)
    = inr results →
  Forall (fun r => alternatives r ≠ []) results →
  api_transcribe env req w =
    (Normal tt,
     {| fs := delete (path f +:+ ".wav") (delete (path f) (<[path f +:+ ".wav" := wav]> (fs w)));
        trace := trace w ++ [CallFfmpeg (path f) (path f +:+ ".wav");
                             CallRecognize (ToBase64 wav)];
        res := {| statusCode := statusCode (res w);
                  headers := headers (res w);
                  sent := sent (res w) ++
                          [SendJson (JObject [("transcript", join " " (map top results))])] |} |}).
Proof.
  intros Hfile Hdisk Hffmpeg Hrecognize Htop.
  pose proof (tmpWav_fresh (path f)) as Hfresh.
  unfold api_transcribe, function_body, try_catch, api_transcribe_try.
  unfold req_file. rewrite Hfile.
  unfold bind at 1. unfold ret at 1.
  unfold bind at 1. unfold ffmpeg at 1. rewrite Hffmpeg.
  unfold bind at 1. unfold readFileSync at 1. simpl fs. rewrite lookup_insert_eq.
  unfold bind at 1. unfold sttClient_recognize, await. simpl trace. rewrite Hrecognize.
  unfold bind at 1. unfold unlinkSync at 1. simpl fs.
  rewrite lookup_insert_ne by done. rewrite Hdisk.
  unfold bind at 1. unfold unlinkSync at 1. simpl fs.
  rewrite lookup_delete_ne by done. rewrite lookup_insert_eq.
  unfold bind at 1. rewrite (array_map_top_transcript results _ Htop).
  unfold res_json, res_write, with_res, with_fs, log. simpl.
  by rewrite <- app_assoc.
Qed.

(** [join(" ")] is the specification's single-space join. *)
Lemma join_spec_space_joined (l : list string) : join " " l = spec_space_joined l.
Proof.
  unfold join. induction l as [|t [|t' rest] IH]; [done|done|].
  change (String.concat " " (t :: t' :: rest))
    with (t +:+ " " +:+ String.concat " " (t' :: rest)).
  by rewrite IH.
Qed.

(** C6, as stated, fails when a result entry has no alternative: here
    recognition succeeds with the entries [hello] and one without
    alternatives, and the answer is a 500 with the TypeError's message, not
    a JSON [{transcript}]. *)
Lemma transcribe_entry_without_alternative_counterexample :
  recognize partial_alternatives_env [CallFfmpeg (path clip_upload) clip_wav]
            (ToBase64 "wav:opus frames")
    = inr [ {| alternatives := [ {| transcript := "hello" |} ] |};
            {| alternatives := [] |} ] ∧
  res (api_transcribe partial_alternatives_env clip_request clip_world).2
    = {| statusCode := 500; headers := [];
         sent := [SendJson (JObject
                    [("error", message (TypeError_undefined "transcript"))])] |}.
Proof. split; vm_compute; reflexivity. Qed.

(** C6 (amended): when the upload is on disk, the transcoder and the
    recognition engine succeed and every result entry has at least one
    alternative, the handler leaves the status at its default and sends the
    JSON body [{transcript}] whose value is the top alternatives'
    transcripts of all result entries, in the engine's order, joined with a
    single space. *)
Theorem transcribe_joins_top_alternatives env req f content wav results w :
  file req = Some f →
  fs w !! path f = Some content →
  ffmpeg_save env (trace w) (fs w) (path f) (path f +:+ ".wav") = inr wav →
  recognize env (trace w ++ [CallFfmpeg (path f) (path f +:+ ".wav")]) (ToBase64 wav)
    = inr results →
  Forall (fun r => alternatives r ≠ []) results →
  ∃ w', api_transcribe env req w = (Normal tt, w') ∧
        statusCode (res w') = statusCode (res w) ∧
        sent (res w') =
          (sent (res w) ++
           [SendJson (JObject [("transcript", spec_space_joined (map top results))])])%list.
Proof.
  intros Hfile Hdisk Hffmpeg Hrecognize Htop.
  rewrite (api_transcribe_success_run env req f content wav results w
             Hfile Hdisk Hffmpeg Hrecognize Htop).
  eexists. split; [reflexivity|]. simpl. by rewrite join_spec_space_joined.
Qed.

(** The engine answers [hello] and [world]: the response is
    [{transcript: "hello world"}] with status 200. *)
Lemma transcribe_joins_top_alternatives_witness :
  ∃ w', api_transcribe working_env clip_request clip_world = (Normal tt, w') ∧
        statusCode (res w') = 200 ∧
        sent (res w') = [SendJson (JObject [("transcript", "hello world")])].
Proof.
  apply (transcribe_joins_top_alternatives working_env clip_request clip_upload
           "opus frames" "wav:opus frames" hello_world_results clip_world).
  - reflexivity.
  - apply lookup_singleton_eq.
  - vm_compute. reflexivity.
  - reflexivity.
  - repeat constructor; discriminate.
Defined.

(** A result entry without alternatives makes [r.alternatives[0].transcript]
    throw after both files were unlinked: the job ends in a 500. *)
Example transcribe_missing_alternative_run :
  let env := {| path_extname := NodeRuntime.extname;
                toLowerCase := NodeRuntime.toLowerCase;
                trim := NodeRuntime.trim;
                synthesizeSpeech := synthesizeSpeech working_env;
                pdf := pdf working_env;
                mammoth_extractRawText := mammoth_extractRawText working_env;
                ffmpeg_save := ffmpeg_save working_env;
                recognize := fun _ _ => inr [ {| alternatives := [] |} ] |} in
  res (api_transcribe env clip_request clip_world).2
  = {| statusCode := 500; headers := [];
       sent := [SendJson (JObject [("error", message (TypeError_undefined "transcript"))])] |}.
Proof. vm_compute. reflexivity. Qed.

(** What the handler does when recognition fails after a successful
    conversion: no [unlinkSync] is reached. *)
Lemma api_transcribe_recognition_failure_run env req f wav e w :
  file req = Some f →
  ffmpeg_save env (trace w) (fs w) (path f) (path f +:+ ".wav") = inr wav →
  recognize env (trace w ++ [CallFfmpeg (path f) (path f +:+ ".wav")]) (ToBase64 wav)
    = inl e →
  api_transcribe env req w =
    (Normal tt,
     {| fs := <[path f +:+ ".wav" := wav]> (fs w);
        trace := trace w ++ [CallFfmpeg (path f) (path f +:+ ".wav");
                             CallRecognize (ToBase64 wav);
                             ConsoleError "STT Error:" e];
        res := {| statusCode := 500;
                  headers := headers (res w);
                  sent := sent (res w) ++ [SendJson (JObject [("error", message e)])] |} |}).
Proof.
  intros Hfile Hffmpeg Hrecognize.
  unfold_transcribe. rewrite Hfile. simpl. rewrite Hffmpeg. simpl.
  rewrite lookup_insert_eq. simpl. rewrite Hrecognize. simpl.
  unfold with_res, with_fs, log. simpl. by rewrite <- !app_assoc.
Qed.

(** C1: the runs of /api/transcribe on the upload [clip_upload].  When the
    transcoder fails, the handler answers 500 and the upload is still on
    disk.  When recognition fails, the handler answers 500 and both the
    upload and the normalized [.wav] are still on disk.  Only when both
    engines succeed are the two files deleted. *)
Theorem transcribe_cleanup_only_on_success :
  let after_transcoder_failure :=
    (api_transcribe transcoder_down_env clip_request clip_world).2 in
  let after_recognition_failure :=
    (api_transcribe recognition_down_env clip_request clip_world).2 in
  let after_success :=
    (api_transcribe working_env clip_request clip_world).2 in
  (statusCode (res after_transcoder_failure) = 500 ∧
   fs after_transcoder_failure !! path clip_upload = Some "opus frames") ∧
  (statusCode (res after_recognition_failure) = 500 ∧
   fs after_recognition_failure !! path clip_upload = Some "opus frames" ∧
   fs after_recognition_failure !! clip_wav = Some "wav:opus frames") ∧
  (statusCode (res after_success) = 200 ∧
   fs after_success !! path clip_upload = None ∧
   fs after_success !! clip_wav = None).
Proof. repeat split; vm_compute; reflexivity. Qed.

(** ** The live transcription bridge *)

Section LiveProperties.

Import Live.

(** Every callback but [on_message] writes nothing to the recognition
    channel, and every callback but [on_close] does not end it. *)
Lemma on_data_stream data rest :
  stream_writes (on_data data ++ rest) = stream_writes rest ∧
  stream_ends (on_data data ++ rest) = stream_ends rest ∧
  writes_after_end (on_data data ++ rest) = writes_after_end rest.
Proof. by destruct data as [[|[[|a alts] final] rs]]. Qed.

Lemma stream_writes_deliver evs : stream_writes (deliver evs) = client_frames evs.
Proof.
  induction evs as [|ev evs IH]; [done|].
  destruct ev as [msg| |data|err]; simpl; rewrite <- ?IH; try done.
  apply on_data_stream.
Qed.

Lemma client_quiet_stream evs :
  client_quiet evs = true →
  stream_writes (deliver evs) = [] ∧ stream_ends (deliver evs) = 0.
Proof.
  induction evs as [|ev evs IH]; [done|].
  destruct ev as [msg| |data|err]; simpl; try done.
  intros Hq. destruct (on_data_stream data (deliver evs)) as (-> & -> & _). by apply IH.
Qed.

Lemma not_closed_no_end evs :
  client_closed evs = false → stream_ends (deliver evs) = 0.
Proof.
  induction evs as [|ev evs IH]; [done|].
  destruct ev as [msg| |data|err]; simpl; try done.
  intros Hc. destruct (on_data_stream data (deliver evs)) as (_ & -> & _). by apply IH.
Qed.

(** C3, as stated, fails: a recognition message with no result, and one
    whose first result has no alternative, put nothing on the client
    socket. *)
Lemma live_result_without_transcript_counterexample :
  ws_sends (session [StreamData {| results := [] |}]) = [] ∧
  ws_sends (session [StreamData {| results := [ {| alternatives := []; isFinal := true |} ] |}])
    = [].
Proof. split; reflexivity. Qed.

(** C3 (amended): the messages pushed to the client are, event by event and
    in emission order, one [{transcript}] message for each recognition
    message whose first result has a top alternative (carrying that
    alternative's transcript) and one [{error}] message for each error
    event; recognition messages without such an alternative push nothing;
    and a message is treated the same whether its results are interim or
    final. *)
Theorem live_results_pushed_in_order :
  (∀ evs, ws_sends (session evs) = concat (map pushed evs)) ∧
  (∀ data t, first_transcript data = Some t →
             ws_sends (on_data data) = [JSON.stringify (JObject [("transcript", t)])]) ∧
  (∀ data, first_transcript data = None → ws_sends (on_data data) = []) ∧
  (∀ b data, on_data (set_final b data) = on_data data).
Proof.
  repeat split.
  - intros evs. unfold session. simpl.
    induction evs as [|ev evs IH]; [done|].
    destruct ev as [msg| |data|err]; simpl; rewrite <- ?IH; try done.
    by destruct data as [[|[[|a alts] final] rs]].
  - intros data t. destruct data as [[|[[|a alts] final] rs]]; simpl; try done.
    unfold first_transcript. simpl. by intros [= ->].
  - intros data. by destruct data as [[|[[|a alts] final] rs]].
  - intros b data. by destruct data as [[|[[|a alts] final] rs]].
Qed.

Lemma live_results_pushed_in_order_witness :
  ws_sends (on_data {| results := [ {| alternatives := [ {| transcript := "hel" |} ];
                                       isFinal := false |} ] |})
  = [JSON.stringify (JObject [("transcript", "hel")])].
Proof.
  apply (proj1 (proj2 live_results_pushed_in_order)). reflexivity.
Defined.

(** C4: the chunks written to the recognition channel during a session are
    exactly the frames the client sent, one write per frame and in arrival
    order, whatever the recognition channel emits in between; in particular
    the frames A, B, C arrive as A, B, C. *)
Theorem live_frames_forwarded_in_order :
  (∀ evs, stream_writes (session evs) = client_frames evs) ∧
  (∀ frames, stream_writes (session (map WsMessage frames)) = frames) ∧
  (∀ A B C, session [WsMessage A; WsMessage B; WsMessage C]
            = (on_connection ++ [RecognizeStreamWrite A; RecognizeStreamWrite B;
                                 RecognizeStreamWrite C])%list).
Proof.
  assert (Hall : ∀ evs, stream_writes (session evs) = client_frames evs).
  { intros evs. unfold session. simpl. apply stream_writes_deliver. }
  split; [exact Hall|]. split; [|done].
  intros frames. rewrite Hall. induction frames as [|x frames IH]; [done|].
  simpl. by rewrite IH.
Qed.

(** C5: in a session whose client events follow the socket's protocol (one
    "close", no "message" after it), once the client connection has closed
    the recognition channel has been ended exactly once and no chunk is
    written to it after that end. *)
Theorem live_half_close_once evs :
  ws_protocol evs = true →
  client_closed evs = true →
  stream_ends (session evs) = 1 ∧ writes_after_end (session evs) = [].
Proof.
  unfold session. simpl.
  induction evs as [|ev evs IH]; [done|].
  destruct ev as [msg| |data|err]; simpl.
  - done.
  - intros Hq _. destruct (client_quiet_stream evs Hq) as [-> ->]. done.
  - intros Hp Hc. destruct (on_data_stream data (deliver evs)) as (_ & -> & ->).
    by apply IH.
  - done.
Qed.

Lemma live_half_close_once_witness :
  let evs := [WsMessage "A";
              StreamData {| results := [ {| alternatives := [ {| transcript := "hi" |} ];
                                            isFinal := false |} ] |};
              WsMessage "B";
              WsClose;
              StreamData {| results := [ {| alternatives := [ {| transcript := "hi." |} ];
                                            isFinal := true |} ] |}] in
  stream_ends (session evs) = 1 ∧ writes_after_end (session evs) = [].
Proof.
  apply live_half_close_once; reflexivity.
Defined.

(** Before the client closes, the recognition channel is not ended. *)
Lemma live_no_end_before_close evs :
  client_closed evs = false → stream_ends (session evs) = 0.
Proof. unfold session. simpl. apply not_closed_no_end. Qed.

End LiveProperties.

(** * Further properties of the handlers *)

(** ** POST /api/tts, over all requests *)

(** Case analysis over every path through the handler. *)
Ltac tts_cases H :=
  unfold api_tts, function_body, api_tts_catch in H;
  unfold try_catch, console_error, api_tts_try, ttsClient_synthesizeSpeech, pdf_parse,
    mammoth, await, readFileSync, unlinkSync, res_status, res_send_text,
    res_send_buffer, res_set, res_write, return_, ret, bind in H;
  repeat (case_match; simpl in *; simplify_eq);
  unfold log, with_res, with_fs; simpl.

(** X1: whatever the request, the world and the collaborators, the
    /api/tts handler completes normally and sends exactly one response
    body. *)
Theorem api_tts_answers_exactly_once env req w :
  (api_tts env req w).1 = Normal tt ∧
  ∃ b, sent (res (api_tts env req w).2) = (sent (res w) ++ [b])%list.
Proof.
  destruct (api_tts env req w) as [c w'] eqn:H. simpl.
  tts_cases H; (split; [reflexivity|eexists; reflexivity]).
Qed.

(** X2: starting from a fresh response, /api/tts ends in one of four
    answers: 200 with the audio/mpeg header and an audio buffer; 400 with
    the unsupported-file-type message, with no call made and no file
    touched; 400 with "No text found for TTS", with no synthesis call made;
    or 500 with "TTS failed completely.", whose last call is the synthesis
    of the apology phrase. *)
Theorem api_tts_response_shapes env req files calls :
  let w' := (api_tts env req {| fs := files; trace := calls; res := fresh_response |}).2 in
  (∃ audio, res w' = {| statusCode := 200;
                        headers := [("Content-Type", "audio/mpeg")];
                        sent := [SendBuffer audio] |}) ∨
  (res w' = {| statusCode := 400; headers := []; sent := [SendText unsupported_message] |} ∧
   trace w' = calls ∧ fs w' = files) ∨
  (res w' = {| statusCode := 400; headers := []; sent := [SendText "No text found for TTS"] |} ∧
   synthesis_calls (trace w') = synthesis_calls calls) ∨
  (res w' = {| statusCode := 500; headers := []; sent := [SendText "TTS failed completely."] |} ∧
   ∃ l, trace w' = (calls ++ l ++ [CallSynthesizeSpeech apology])%list).
Proof.
  cbv zeta.
  destruct (api_tts env req _) as [c w'] eqn:H. simpl.
  tts_cases H;
    first [ left; eexists; reflexivity
          | right; left; repeat split; reflexivity
          | right; right; left; split; [reflexivity|];
            rewrite ?synthesis_calls_app; simpl; by rewrite ?app_nil_r
          | right; right; right; split; [reflexivity|];
            rewrite <- ?app_assoc;
            first [ by exists [] | by eexists [_] | by eexists [_; _] | by eexists [_; _; _] ] ].
Qed.

(** X3: /api/tts only appends to the trace of calls, and the calls it adds
    contain no synthesis call, one synthesis call, or two synthesis calls of
    which the second is the apology phrase. *)
Theorem api_tts_synthesis_budget env req w :
  ∃ l, trace (api_tts env req w).2 = (trace w ++ l)%list ∧
       (synthesis_calls l = [] ∨
        (∃ t, synthesis_calls l = [t]) ∨
        (∃ t, synthesis_calls l = [t; apology])).
Proof.
  destruct (api_tts env req w) as [c w'] eqn:H. simpl.
  tts_cases H; rewrite <- ?app_assoc;
    first [ exists []; split; [by rewrite app_nil_r|by left]
          | eexists; split; [reflexivity|];
            first [ by left | right; left; eexists; reflexivity
                  | right; right; eexists; reflexivity ] ].
Qed.

(** X4: /api/tts never writes a file; either it leaves the file system as
    it was, or the request had no text and an upload that was on disk, and
    the only change is that this upload is deleted. *)
Theorem api_tts_only_removes_upload env req w :
  fs (api_tts env req w).2 = fs w ∨
  ∃ f content, file req = Some f ∧ falsy (body_text req) = true ∧
               fs w !! path f = Some content ∧
               fs (api_tts env req w).2 = delete (path f) (fs w).
Proof.
  destruct (api_tts env req w) as [c w'] eqn:H. simpl.
  tts_cases H;
    first [ by left
          | right; eexists _, _; split; [reflexivity|]; split; [reflexivity|];
            split; [eassumption|reflexivity] ].
Qed.

(** ** POST /api/tts, path by path *)

(** X5: a request without usable text (no text, empty text or white
    space only) and without an upload that would be read (no file, or a
    non-empty text field) is answered 400 "No text found for TTS"; no call
    is made and no file is touched. *)
Theorem api_tts_blank_text_rejected env req w :
  file req = None ∨ falsy (body_text req) = false →
  falsy (body_text req) || is_empty (trim env (default "" (body_text req))) = true →
  api_tts env req w =
    (Normal tt,
     {| fs := fs w; trace := trace w;
        res := {| statusCode := 400; headers := headers (res w);
                  sent := sent (res w) ++ [SendText "No text found for TTS"] |} |}).
Proof.
  intros Hnofile Hblank.
  unfold api_tts, function_body, try_catch. unfold_tts.
  destruct (file req) as [f|]; simpl.
  - destruct Hnofile as [|Htext]; [done|]. rewrite Htext. simpl. by rewrite Hblank.
  - by rewrite Hblank.
Qed.

Lemma api_tts_blank_text_rejected_witness :
  api_tts working_env empty_request empty_world =
    (Normal tt,
     {| fs := ∅; trace := [];
        res := {| statusCode := 400; headers := [];
                  sent := [SendText "No text found for TTS"] |} |}).
Proof.
  apply (api_tts_blank_text_rejected working_env empty_request empty_world).
  - left. reflexivity.
  - reflexivity.
Defined.

(** X6: when the request has usable text and the engine answers, the
    handler makes that one synthesis call and sends the audio with the
    audio/mpeg header; an upload that came with the text is neither
    inspected nor deleted. *)
Theorem api_tts_speaks_text env req t audio w :
  body_text req = Some t →
  is_empty t = false →
  is_empty (trim env t) = false →
  synthesizeSpeech env (trace w) t = inr audio →
  api_tts env req w =
    (Normal tt,
     {| fs := fs w; trace := trace w ++ [CallSynthesizeSpeech t];
        res := {| statusCode := statusCode (res w);
                  headers := headers (res w) ++ [("Content-Type", "audio/mpeg")];
                  sent := sent (res w) ++ [SendBuffer audio] |} |}).
Proof.
  intros Htext Ht Htrim Hsynth.
  unfold api_tts, function_body, try_catch.
  rewrite (api_tts_try_text_run env req t w Htext Ht Htrim), Hsynth. reflexivity.
Qed.

Lemma api_tts_speaks_text_witness :
  api_tts working_env text_and_file_request xyz_world =
    (Normal tt,
     {| fs := fs xyz_world; trace := [CallSynthesizeSpeech "Hello there"];
        res := {| statusCode := 200;
                  headers := [("Content-Type", "audio/mpeg")];
                  sent := [SendBuffer "mp3:Hello there"] |} |}).
Proof.
  apply (api_tts_speaks_text working_env text_and_file_request "Hello there"
           "mp3:Hello there" xyz_world); reflexivity.
Defined.

(** X7: a .txt upload on disk with usable content is read, deleted, and
    its content is what the synthesis engine is called with; the engine's
    audio is sent with the audio/mpeg header. *)
Theorem api_tts_speaks_txt_upload env req f content audio w :
  falsy (body_text req) = true →
  file req = Some f →
  toLowerCase env (path_extname env (originalname f)) = ".txt" →
  fs w !! path f = Some content →
  is_empty content || is_empty (trim env content) = false →
  synthesizeSpeech env (trace w) content = inr audio →
  api_tts env req w =
    (Normal tt,
     {| fs := delete (path f) (fs w); trace := trace w ++ [CallSynthesizeSpeech content];
        res := {| statusCode := statusCode (res w);
                  headers := headers (res w) ++ [("Content-Type", "audio/mpeg")];
                  sent := sent (res w) ++ [SendBuffer audio] |} |}).
Proof.
  intros Htext Hfile Hext Hdisk Hblank Hsynth.
  unfold api_tts, function_body, try_catch. unfold_tts.
  rewrite Hfile, Htext, Hext. simpl. rewrite Hdisk. simpl. rewrite Hdisk. simpl.
  rewrite Hblank. simpl. rewrite Hsynth. reflexivity.
Qed.

Lemma api_tts_speaks_txt_upload_witness :
  api_tts working_env (upload_request "notes.TXT") (uploaded_world "notes.TXT" "Read me") =
    (Normal tt,
     {| fs := delete (path (upload_named "notes.TXT"))
                     (fs (uploaded_world "notes.TXT" "Read me"));
        trace := [CallSynthesizeSpeech "Read me"];
        res := {| statusCode := 200;
                  headers := [("Content-Type", "audio/mpeg")];
                  sent := [SendBuffer "mp3:Read me"] |} |}).
Proof.
  apply (api_tts_speaks_txt_upload working_env (upload_request "notes.TXT")
           (upload_named "notes.TXT") "Read me" "mp3:Read me"
           (uploaded_world "notes.TXT" "Read me")).
  - reflexivity.
  - reflexivity.
  - vm_compute. reflexivity.
  - apply lookup_singleton_eq.
  - vm_compute. reflexivity.
  - reflexivity.
Defined.

(** X8: a .txt upload on disk whose content is empty or white space only
    is deleted and answered 400 "No text found for TTS", without any call
    to the synthesis engine. *)
Theorem api_tts_blank_txt_upload_rejected env req f content w :
  falsy (body_text req) = true →
  file req = Some f →
  toLowerCase env (path_extname env (originalname f)) = ".txt" →
  fs w !! path f = Some content →
  is_empty content || is_empty (trim env content) = true →
  api_tts env req w =
    (Normal tt,
     {| fs := delete (path f) (fs w); trace := trace w;
        res := {| statusCode := 400; headers := headers (res w);
                  sent := sent (res w) ++ [SendText "No text found for TTS"] |} |}).
Proof.
  intros Htext Hfile Hext Hdisk Hblank.
  unfold api_tts, function_body, try_catch. unfold_tts.
  rewrite Hfile, Htext, Hext. simpl. rewrite Hdisk. simpl. rewrite Hdisk. simpl.
  rewrite Hblank. reflexivity.
Qed.

Lemma api_tts_blank_txt_upload_rejected_witness :
  api_tts working_env (upload_request "blank.txt") (uploaded_world "blank.txt" "  ") =
    (Normal tt,
     {| fs := delete (path (upload_named "blank.txt"))
                     (fs (uploaded_world "blank.txt" "  "));
        trace := [];
        res := {| statusCode := 400; headers := [];
                  sent := [SendText "No text found for TTS"] |} |}).
Proof.
  apply (api_tts_blank_txt_upload_rejected working_env (upload_request "blank.txt")
           (upload_named "blank.txt") "  " (uploaded_world "blank.txt" "  ")).
  - reflexivity.
  - reflexivity.
  - vm_compute. reflexivity.
  - apply lookup_singleton_eq.
  - vm_compute. reflexivity.
Defined.





(** X11: when pdf-parse or mammoth rejects an upload that is on disk, the
    file system is left as it was (the upload is not deleted) and the only
    synthesis call made is the apology phrase. *)
Theorem api_tts_extraction_failure_keeps_upload env req f content e w :
  falsy (body_text req) = true →
  file req = Some f →
  fs w !! path f = Some content →
  (toLowerCase env (path_extname env (originalname f)) = ".pdf" ∧
   pdf env (trace w) content = inl e) ∨
  (toLowerCase env (path_extname env (originalname f)) = ".docx" ∧
   mammoth_extractRawText env (trace w) (fs w) (path f) = inl e) →
  fs (api_tts env req w).2 = fs w ∧
  synthesis_calls (trace (api_tts env req w).2) = (synthesis_calls (trace w) ++ [apology])%list.
Proof.
  intros Htext Hfile Hdisk [[Hext Hfail]|[Hext Hfail]];
    unfold api_tts, function_body, try_catch; unfold_tts;
    rewrite Hfile, Htext, Hext; simpl; rewrite ?Hdisk; simpl; rewrite Hfail; simpl;
    rewrite api_tts_catch_run; simpl;
    destruct (synthesizeSpeech env _ apology); simpl;
    (split; [reflexivity|]); rewrite !synthesis_calls_app; simpl;
    by rewrite !app_nil_r.
Qed.

Lemma api_tts_extraction_failure_keeps_upload_witness :
  fs (api_tts broken_pdf_env (upload_request "report.pdf")
        (uploaded_world "report.pdf" "%PDF-1.7 garbage")).2
    = fs (uploaded_world "report.pdf" "%PDF-1.7 garbage") ∧
  synthesis_calls
    (trace (api_tts broken_pdf_env (upload_request "report.pdf")
              (uploaded_world "report.pdf" "%PDF-1.7 garbage")).2)
    = [apology].
Proof.
  apply (api_tts_extraction_failure_keeps_upload broken_pdf_env
           (upload_request "report.pdf") (upload_named "report.pdf")
           "%PDF-1.7 garbage" corrupt_pdf (uploaded_world "report.pdf" "%PDF-1.7 garbage")).
  - reflexivity.
  - reflexivity.
  - apply lookup_singleton_eq.
  - left. split; [vm_compute; reflexivity | reflexivity].
Defined.

(** ** POST /api/transcribe, over all requests *)

(** [results.map(r => r.alternatives[0].transcript)] either yields every top
    transcript or throws at the first entry without alternatives; it never
    touches the world. *)
Lemma array_map_top_transcript_outcome results w :
  array_map top_transcript results w =
    if forallb has_top results
    then (Normal (map top results), w)
    else (Throw (TypeError_undefined "transcript"), w).
Proof.
  induction results as [|r results IH]; [done|].
  simpl. unfold bind at 1. unfold top_transcript at 1, top at 1, has_top at 1.
  destruct (alternatives r) as [|a alts]; [done|].
  unfold ret at 1. unfold bind at 1. rewrite IH. simpl.
  by destruct (forallb has_top results).
Qed.

(** The handler in closed form: the six ways a job can end. *)
Lemma api_transcribe_run env req w :
  api_transcribe env req w =
    (Normal tt,
     let fail (fs' : gmap string string) (calls : list Event) (err : Error) :=
       {| fs := fs';
          trace := trace w ++ calls ++ [ConsoleError "STT Error:" err];
          res := {| statusCode := 500; headers := headers (res w);
                    sent := sent (res w) ++
                            [SendJson (JObject [("error", message err)])] |} |} in
     match file req with
     | None => fail (fs w) [] (TypeError_undefined "path")
     | Some f =>
         let filePath := path f in
         let tmpWav := filePath +:+ ".wav" in
         match ffmpeg_save env (trace w) (fs w) filePath tmpWav with
         | inl e => fail (fs w) [CallFfmpeg filePath tmpWav] e
         | inr wav =>
             let calls := [CallFfmpeg filePath tmpWav; CallRecognize (ToBase64 wav)] in
             match recognize env (trace w ++ [CallFfmpeg filePath tmpWav]) (ToBase64 wav) with
             | inl e => fail (<[tmpWav := wav]> (fs w)) calls e
             | inr results =>
                 match fs w !! filePath with
                 | None => fail (<[tmpWav := wav]> (fs w)) calls (ENOENT "unlink" filePath)
                 | Some _ =>
                     let fs' := delete tmpWav (delete filePath (<[tmpWav := wav]> (fs w))) in
                     if forallb has_top results then
                       {| fs := fs';
                          trace := trace w ++ calls;
                          res := {| statusCode := statusCode (res w);
                                    headers := headers (res w);
                                    sent := sent (res w) ++
                                      [SendJson (JObject [("transcript",
                                                           join " " (map top results))])] |} |}
                     else fail fs' calls (TypeError_undefined "transcript")
                 end
             end
         end
     end).
Proof.
  unfold api_transcribe, function_body, try_catch, api_transcribe_try, api_transcribe_catch.
  unfold req_file. destruct (file req) as [f|]; [|reflexivity].
  pose proof (tmpWav_fresh (path f)) as Hfresh.
  unfold bind at 1. unfold ret at 1.
  unfold bind at 1. unfold ffmpeg at 1.
  destruct (ffmpeg_save env (trace w) (fs w) (path f) (path f +:+ ".wav")) as [e|wav].
  { cbn. unfold with_res, log. simpl. by rewrite <- app_assoc. }
  unfold bind at 1. unfold readFileSync at 1. simpl fs. rewrite lookup_insert_eq.
  unfold bind at 1. unfold sttClient_recognize, await. simpl trace.
  destruct (recognize env _ (ToBase64 wav)) as [e|results].
  { cbn. unfold with_res, with_fs, log. simpl. by rewrite <- !app_assoc. }
  unfold bind at 1. unfold unlinkSync at 1. simpl fs.
  rewrite lookup_insert_ne by done.
  destruct (fs w !! path f) as [content|].
  2:{ cbn. unfold with_res, with_fs, log. simpl. by rewrite <- !app_assoc. }
  unfold bind at 1. unfold unlinkSync at 1. simpl fs.
  rewrite lookup_delete_ne by done. rewrite lookup_insert_eq.
  unfold bind at 1. rewrite array_map_top_transcript_outcome.
  destruct (forallb has_top results).
  - cbn. unfold with_res, with_fs, log. simpl. by rewrite <- !app_assoc.
  - cbn. unfold with_res, with_fs, log. simpl. by rewrite <- !app_assoc.
Qed.

(** X12: whatever the request, the world and the collaborators, the
    /api/transcribe handler completes normally and sends exactly one
    response body, which is JSON. *)
Theorem api_transcribe_answers_exactly_once env req w :
  (api_transcribe env req w).1 = Normal tt ∧
  ∃ j, sent (res (api_transcribe env req w).2) = (sent (res w) ++ [SendJson j])%list.
Proof.
  rewrite api_transcribe_run. split; [reflexivity|]. simpl.
  repeat case_match; eexists; reflexivity.
Qed.

(** X13: starting from a fresh response, /api/transcribe ends either in
    200 with a JSON body that has the single field [transcript], or in 500
    with a JSON body that has the single field [error]. *)
Theorem api_transcribe_response_shapes env req files calls :
  let w' := (api_transcribe env req
               {| fs := files; trace := calls; res := fresh_response |}).2 in
  (∃ t, res w' = {| statusCode := 200; headers := [];
                    sent := [SendJson (JObject [("transcript", t)])] |}) ∨
  (∃ msg, res w' = {| statusCode := 500; headers := [];
                      sent := [SendJson (JObject [("error", msg)])] |}).
Proof.
  cbv zeta. rewrite api_transcribe_run. simpl.
  repeat case_match; first [ left; eexists; reflexivity | right; eexists; reflexivity ].
Qed.

(** X14: a /api/transcribe request without a file part is answered 500
    with the message of the TypeError raised by [req.file.path]; the
    transcoder and the recognition engine are not called and no file is
    touched. *)
Theorem api_transcribe_missing_file env req w :
  file req = None →
  api_transcribe env req w =
    (Normal tt,
     {| fs := fs w;
        trace := trace w ++ [ConsoleError "STT Error:" (TypeError_undefined "path")];
        res := {| statusCode := 500; headers := headers (res w);
                  sent := sent (res w) ++
                    [SendJson (JObject [("error", message (TypeError_undefined "path"))])] |} |}).
Proof. intros Hfile. rewrite api_transcribe_run, Hfile. reflexivity. Qed.

Lemma api_transcribe_missing_file_witness :
  api_transcribe working_env empty_request empty_world =
    (Normal tt,
     {| fs := ∅;
        trace := [ConsoleError "STT Error:" (TypeError_undefined "path")];
        res := {| statusCode := 500; headers := [];
                  sent := [SendJson (JObject
                             [("error", message (TypeError_undefined "path"))])] |} |}).
Proof.
  apply (api_transcribe_missing_file working_env empty_request empty_world).
  reflexivity.
Defined.

(** X15: when the transcoder succeeds and the recognition engine rejects,
    the answer is 500 with the engine's error message, the engine was called
    once with the base64 encoding of the transcoder's output, and the upload
    and the normalized .wav are both still on disk. *)
Theorem api_transcribe_recognition_failure env req f content wav e w :
  file req = Some f →
  fs w !! path f = Some content →
  ffmpeg_save env (trace w) (fs w) (path f) (path f +:+ ".wav") = inr wav →
  recognize env (trace w ++ [CallFfmpeg (path f) (path f +:+ ".wav")]) (ToBase64 wav)
    = inl e →
  let w' := (api_transcribe env req w).2 in
  statusCode (res w') = 500 ∧
  sent (res w') = (sent (res w) ++ [SendJson (JObject [("error", message e)])])%list ∧
  recognize_calls (trace w') = (recognize_calls (trace w) ++ [ToBase64 wav])%list ∧
  fs w' !! path f = Some content ∧
  fs w' !! (path f +:+ ".wav") = Some wav.
Proof.
  intros Hfile Hdisk Hffmpeg Hrecognize. cbv zeta.
  rewrite api_transcribe_run, Hfile. cbv zeta. rewrite Hffmpeg, Hrecognize. simpl.
  repeat split.
  - rewrite recognize_calls_app. simpl. done.
  - rewrite lookup_insert_ne; [done|]. apply tmpWav_fresh.
  - apply lookup_insert_eq.
Qed.

Lemma api_transcribe_recognition_failure_witness :
  let w' := (api_transcribe recognition_down_env clip_request clip_world).2 in
  statusCode (res w') = 500 ∧
  sent (res w') = [SendJson (JObject [("error", message recognition_down)])] ∧
  recognize_calls (trace w') = [ToBase64 "wav:opus frames"] ∧
  fs w' !! path clip_upload = Some "opus frames" ∧
  fs w' !! clip_wav = Some "wav:opus frames".
Proof.
  apply (api_transcribe_recognition_failure recognition_down_env clip_request clip_upload
           "opus frames" "wav:opus frames" recognition_down clip_world).
  - reflexivity.
  - apply lookup_singleton_eq.
  - vm_compute. reflexivity.
  - reflexivity.
Defined.

(** X16: when recognition succeeds but some result entry has no
    alternative, the answer is 500 with the message of the TypeError raised
    by [r.alternatives[0].transcript], and by then the upload and the
    normalized .wav have both been deleted. *)
Theorem api_transcribe_missing_alternative env req f content wav results w :
  file req = Some f →
  fs w !! path f = Some content →
  ffmpeg_save env (trace w) (fs w) (path f) (path f +:+ ".wav") = inr wav →
  recognize env (trace w ++ [CallFfmpeg (path f) (path f +:+ ".wav")]) (ToBase64 wav)
    = inr results →
  Exists (fun r => alternatives r = []) results →
  let w' := (api_transcribe env req w).2 in
  statusCode (res w') = 500 ∧
  sent (res w') =
    (sent (res w) ++
     [SendJson (JObject [("error", message (TypeError_undefined "transcript"))])])%list ∧
  fs w' !! path f = None ∧
  fs w' !! (path f +:+ ".wav") = None.
Proof.
  intros Hfile Hdisk Hffmpeg Hrecognize Hmissing. cbv zeta.
  assert (forallb has_top results = false) as Hno.
  { apply not_true_is_false. intros Hall. rewrite forallb_forall in Hall.
    apply Exists_exists in Hmissing as (r & Hin & Hr).
    apply list_elem_of_In in Hin. specialize (Hall r Hin).
    unfold has_top in Hall. by rewrite Hr in Hall. }
  pose proof (tmpWav_fresh (path f)) as Hfresh.
  rewrite api_transcribe_run, Hfile. cbv zeta.
  rewrite Hffmpeg, Hrecognize, Hdisk, Hno. simpl.
  repeat split.
  - rewrite lookup_delete_ne by done. apply lookup_delete_eq.
  - apply lookup_delete_eq.
Qed.

Lemma api_transcribe_missing_alternative_witness :
  let w' := (api_transcribe no_alternative_env clip_request clip_world).2 in
  statusCode (res w') = 500 ∧
  sent (res w') =
    [SendJson (JObject [("error", message (TypeError_undefined "transcript"))])] ∧
  fs w' !! path clip_upload = None ∧
  fs w' !! clip_wav = None.
Proof.
  apply (api_transcribe_missing_alternative no_alternative_env clip_request clip_upload
           "opus frames" "wav:opus frames" [ {| alternatives := [] |} ] clip_world).
  - reflexivity.
  - apply lookup_singleton_eq.
  - vm_compute. reflexivity.
  - reflexivity.
  - constructor. reflexivity.
Defined.

(** X17: on the success path of /api/transcribe the file system ends as
    the initial one without the upload and without upload + ".wav" (every
    other file is as it was), and the calls made are the transcoder call
    followed by one recognition call on the base64 of its output. *)
Theorem api_transcribe_success_cleanup env req f content wav results w :
  file req = Some f →
  fs w !! path f = Some content →
  ffmpeg_save env (trace w) (fs w) (path f) (path f +:+ ".wav") = inr wav →
  recognize env (trace w ++ [CallFfmpeg (path f) (path f +:+ ".wav")]) (ToBase64 wav)
    = inr results →
  Forall (fun r => alternatives r ≠ []) results →
  let w' := (api_transcribe env req w).2 in
  fs w' = delete (path f +:+ ".wav") (delete (path f) (fs w)) ∧
  fs w' !! path f = None ∧
  fs w' !! (path f +:+ ".wav") = None ∧
  trace w' = (trace w ++ [CallFfmpeg (path f) (path f +:+ ".wav");
                          CallRecognize (ToBase64 wav)])%list.
Proof.
  intros Hfile Hdisk Hffmpeg Hrecognize Htop. cbv zeta.
  pose proof (tmpWav_fresh (path f)) as Hfresh.
  rewrite (api_transcribe_success_run env req f content wav results w
             Hfile Hdisk Hffmpeg Hrecognize Htop). simpl.
  repeat split.
  - rewrite (delete_insert_ne (fs w)) by done. by rewrite delete_insert_eq.
  - rewrite lookup_delete_ne by done. apply lookup_delete_eq.
  - apply lookup_delete_eq.
Qed.

Lemma api_transcribe_success_cleanup_witness :
  let w' := (api_transcribe working_env clip_request clip_world_with_key).2 in
  fs w' = delete clip_wav (delete (path clip_upload) (fs clip_world_with_key)) ∧
  fs w' !! path clip_upload = None ∧
  fs w' !! clip_wav = None ∧
  trace w' = [CallFfmpeg (path clip_upload) clip_wav;
              CallRecognize (ToBase64 "wav:opus frames")].
Proof.
  apply (api_transcribe_success_cleanup working_env clip_request clip_upload
           "opus frames" "wav:opus frames" hello_world_results clip_world_with_key).
  - reflexivity.
  - vm_compute. reflexivity.
  - vm_compute. reflexivity.
  - reflexivity.
  - repeat constructor; discriminate.
Defined.

(** X18: whatever the outcome, /api/transcribe leaves every path other
    than the upload and upload + ".wav" as it was. *)
Theorem api_transcribe_touches_only_job_files env req w q :
  (∀ f, file req = Some f → q ≠ path f ∧ q ≠ path f +:+ ".wav") →
  fs (api_transcribe env req w).2 !! q = fs w !! q.
Proof.
  intros Hother. rewrite api_transcribe_run. simpl.
  destruct (file req) as [f|]; [|done].
  destruct (Hother f eq_refl) as [Hq1 Hq2].
  repeat case_match; simpl;
    rewrite ?lookup_delete_ne, ?lookup_insert_ne by done; done.
Qed.

Lemma api_transcribe_touches_only_job_files_witness :
  fs (api_transcribe working_env clip_request clip_world_with_key).2 !! key_path
    = fs clip_world_with_key !! key_path.
Proof.
  apply (api_transcribe_touches_only_job_files working_env clip_request
           clip_world_with_key key_path).
  intros f Hf. injection Hf as <-. split; vm_compute; discriminate.
Defined.

(** X19: /api/transcribe only appends to the trace of calls; it never
    calls the synthesis engine, and it calls the recognition engine at most
    once, only after the transcoder succeeded and with the base64 encoding
    of exactly what the transcoder produced. *)
Theorem api_transcribe_call_budget env req w :
  ∃ l, trace (api_transcribe env req w).2 = (trace w ++ l)%list ∧
       synthesis_calls l = [] ∧
       (recognize_calls l = [] ∨
        ∃ f wav, file req = Some f ∧
                 ffmpeg_save env (trace w) (fs w) (path f) (path f +:+ ".wav") = inr wav ∧
                 recognize_calls l = [ToBase64 wav]).
Proof.
  rewrite api_transcribe_run. simpl.
  destruct (file req) as [f|].
  2:{ eexists. split; [reflexivity|]. split; [done|by left]. }
  destruct (ffmpeg_save env (trace w) (fs w) (path f) (path f +:+ ".wav"))
    as [e|wav] eqn:Hffmpeg.
  { eexists. split; [reflexivity|]. split; [done|by left]. }
  repeat case_match; (eexists; split; [reflexivity|]; split; [done|]);
    right; by exists f, wav.
Qed.

(** ** The live transcription bridge, over all event sequences *)

Section LiveFurther.

Import Live.

(** X20: in any session, with no assumption on the order of events, the
    recognition channel is ended once per "close" event of the client
    socket: recognition results and recognition errors never end it. *)
Theorem live_ends_match_closes evs :
  stream_ends (session evs) = client_closes evs.
Proof.
  unfold session. simpl.
  induction evs as [|ev evs IH]; [done|].
  destruct ev as [msg| |data|err]; simpl; rewrite <- ?IH; try done.
  apply on_data_stream.
Qed.

Lemma stream_opens_deliver evs : stream_opens (deliver evs) = 0.
Proof.
  induction evs as [|ev evs IH]; [done|].
  destruct ev as [msg| |data|err]; simpl; try done.
  by destruct data as [[|[[|a alts] final] rs]].
Qed.

(** X21: a session opens exactly one recognition channel, as the second
    call of the connection handler and before any callback runs; the
    callbacks never open another. *)
Theorem live_opens_one_channel evs :
  stream_opens (session evs) = 1 ∧
  ∃ rest, session evs
          = ConsoleLog ["🎧 Client connected for live transcription"]
              :: StreamingRecognize :: rest ∧
          stream_opens rest = 0.
Proof.
  unfold session. simpl. rewrite stream_opens_deliver. split; [done|].
  exists (deliver evs). split; [done|]. apply stream_opens_deliver.
Qed.

(** X22: the two directions of the bridge do not influence each other:
    what is pushed to the client depends only on the recognition channel's
    events, and what is written to or ended on the recognition channel
    depends only on the client socket's events. *)
Theorem live_directions_independent evs :
  ws_sends (session evs)
    = ws_sends (session (List.filter (fun ev => negb (from_client ev)) evs)) ∧
  stream_writes (session evs) = stream_writes (session (List.filter from_client evs)) ∧
  stream_ends (session evs) = stream_ends (session (List.filter from_client evs)).
Proof.
  unfold session. simpl.
  induction evs as [|ev evs (IHs & IHw & IHe)]; [done|].
  destruct ev as [msg| |data|err]; simpl; rewrite ?IHs, ?IHw, ?IHe; try done.
  - destruct (on_data_stream data (deliver evs)) as (-> & -> & _).
    rewrite IHw, IHe. split; [|done].
    destruct data as [[|[[|a alts] final] rs]]; simpl; by rewrite ?IHs.
Qed.

(** X23: the bridge pushes at most one message to the client per event of
    the recognition channel, and none for client events. *)
Theorem live_no_spontaneous_message evs :
  (length (ws_sends (session evs))
     ≤ length (List.filter (fun ev => negb (from_client ev)) evs))%nat.
Proof.
  unfold session. simpl.
  induction evs as [|ev evs IH]; [done|].
  destruct ev as [msg| |data|err]; simpl; try lia.
  destruct data as [[|[[|a alts] final] rs]]; simpl; lia.
Qed.

End LiveFurther.
